(** * webdriver.TestCase: the asynchronous test-phase driver

    A shallow embedding of [javascript/webdriver-jsapi/testcase.js]:
    [webdriver.TestCase.prototype.cycleTests] and
    [webdriver.TestCase.prototype.runSingleTest_].

    The JavaScript code runs on a single-threaded event loop.  It is embedded
    by explicit state passing: a [State] holds the mutable objects the code
    touches (the test iterator, the result counters, the closure variables, the
    pending timers) together with a clock and a time-stamped trace of every
    call the driver makes on its collaborators. *)

From Stdlib Require Import String List Arith Lia Bool.
From stdpp Require Import base list.
Import ListNotations.

Set Implicit Arguments.

(** ** Data model *)

Section Model.

(** The receiver objects ([test.scope]), the part of the JavaScript heap the
    phase functions work on, and the values a phase can throw are opaque to
    the driver. *)
Variables (Scope World Error : Type).

(** How a promise settles: resolved, or rejected with the thrown value. *)
Inductive Settlement : Type :=
| Resolved
| Rejected (e : Error).

(** What running a phase function to idle does: the heap it leaves, how the
    promise of the task settles and how long the task took. *)
Record Outcome : Type := mkOutcome {
  heap_after : World;
  settled : Settlement;
  elapsed : nat
}.

(** A JavaScript function used as a test phase, called on a receiver. *)
Definition Fn : Type := Scope -> World -> Outcome.

(** [goog.testing.TestCase.Test]: the object [this.next()] returns, of which
    the driver reads [test.name], [test.ref] and [test.scope]. *)
Record Test : Type := mkTest {
  name : string;
  ref : Fn;
  scope : Scope
}.

(** The properties of [this] the driver reads as functions: [this.setUp] and
    [this.tearDown]. *)
Record TestCase : Type := mkTestCase {
  setUp : Fn;
  tearDown : Fn
}.

(** The one closure handed to [self.timeout]:
    [function() { self.cycleTests(); }]. *)
Inductive Callback : Type :=
| CbCycleTests.

(** The calls and writes the driver makes on its collaborators. *)
Inductive Event : Type :=
| EvCurrentTestName (n : string)
| EvRunCount (count : nat)
| EvLog (msg : string)
| EvSchedule (description : string)
| EvCall (fn : Fn) (receiver : Scope)
| EvIdle (description : string) (r : Settlement)
| EvDoSuccess (test : Test)
| EvDoError (test : Test) (e : Error)
| EvTimeout (cb : Callback) (delay : nat)
| EvFinalize.

(** The mutable state of a run:
    - [tests]: the tests the iterator behind [this.next()] has not returned;
    - [runCount]: [this.result_.runCount];
    - [currentTestName]: [goog.testing.TestCase.currentTestName];
    - [heap]: what the phase functions read and write;
    - [now]: the clock;
    - [timers]: the pending timers, each with the time it is due;
    - [cells]: the closure variables [hadError], one for each call of
      [cycleTests] so far, shared by the closures that call created;
    - [trace]: the events so far, each with the time it happened. *)
Record State : Type := mkState {
  tests : list Test;
  runCount : nat;
  currentTestName : string;
  heap : World;
  now : nat;
  timers : list (nat * Callback);
  cells : list bool;
  trace : list (nat * Event)
}.

(** ** State updates *)

Definition emit (e : Event) (s : State) : State :=
  mkState (tests s) (runCount s) (currentTestName s) (heap s) (now s)
          (timers s) (cells s) (trace s ++ [(now s, e)]).

Definition set_tests (l : list Test) (s : State) : State :=
  mkState l (runCount s) (currentTestName s) (heap s) (now s)
          (timers s) (cells s) (trace s).

Definition set_runCount (n : nat) (s : State) : State :=
  mkState (tests s) n (currentTestName s) (heap s) (now s)
          (timers s) (cells s) (trace s).

Definition set_currentTestName (n : string) (s : State) : State :=
  mkState (tests s) (runCount s) n (heap s) (now s)
          (timers s) (cells s) (trace s).

Definition set_heap (w : World) (s : State) : State :=
  mkState (tests s) (runCount s) (currentTestName s) w (now s)
          (timers s) (cells s) (trace s).

Definition set_now (t : nat) (s : State) : State :=
  mkState (tests s) (runCount s) (currentTestName s) (heap s) t
          (timers s) (cells s) (trace s).

Definition set_timers (l : list (nat * Callback)) (s : State) : State :=
  mkState (tests s) (runCount s) (currentTestName s) (heap s) (now s)
          l (cells s) (trace s).

Definition set_cells (l : list bool) (s : State) : State :=
  mkState (tests s) (runCount s) (currentTestName s) (heap s) (now s)
          (timers s) l (trace s).

(** ** Collaborators *)

(** Modelled from the spec: [goog.testing.TestCase.prototype.next] is not in
    the source file.  "advances an iterator over registered tests ... finite":
    it returns the first test not yet fetched and moves past it, or nothing. *)
Definition next (s : State) : State * option Test :=
  match tests s with
  | [] => (s, None)
  | t :: rest => (set_tests rest s, Some t)
  end.

(** Modelled from the spec: the reporting sinks [log], [doSuccess], [doError]
    and [finalize] of the base test case are not in the source file; "none
    return values consumed by the core".  Each call is recorded. *)
Definition log (msg : string) (s : State) : State := emit (EvLog msg) s.
Definition doSuccess (t : Test) (s : State) : State := emit (EvDoSuccess t) s.
Definition doError (t : Test) (e : Error) (s : State) : State :=
  emit (EvDoError t e) s.
Definition finalize (s : State) : State := emit EvFinalize s.

(** Modelled from the spec: the timers behind [timeout] are not in the source
    file.  Pending timers are kept ordered by due time; of two timers due
    together the one set first runs first. *)
Fixpoint insert_timer (d : nat) (cb : Callback) (l : list (nat * Callback))
  : list (nat * Callback) :=
  match l with
  | [] => [(d, cb)]
  | (d', cb') :: rest =>
      if d <? d' then (d, cb) :: l else (d', cb') :: insert_timer d cb rest
  end.

(** Modelled from the spec: [goog.testing.TestCase.prototype.timeout] is not
    in the source file.  "schedules callback to run after delayMs". *)
Definition timeout (cb : Callback) (delay : nat) (s : State) : State :=
  set_timers (insert_timer (now s + delay) cb (timers s))
             (emit (EvTimeout cb delay) s).

(** A promise, once the event loop has run it to settlement: the state it
    leaves and how it settled. *)
Definition Promise : Type := State -> State * Settlement.

(** Modelled from the spec: [webdriver.promise.Promise] is not in the source
    file.  "chained success/failure continuations ... attaching a failure
    handler after a success-handler chain recovers the chain (subsequent
    continuations run normally even if an earlier phase failed)".
    A success continuation runs when the promise resolved, and the chain then
    settles as the promise the continuation returns; a rejection skips it. *)
Definition addCallback (p : Promise) (callback : unit -> Promise) : Promise :=
  fun s =>
    match p s with
    | (s1, Resolved) => callback tt s1
    | (s1, Rejected e) => (s1, Rejected e)
    end.

(** Modelled from the spec: [webdriver.promise.Promise.addErrback] is not in
    the source file.  A failure handler runs when the promise was rejected,
    on the rejection's value, and "recovers the chain": the chain is resolved
    afterwards.  A resolved promise passes it by. *)
Definition addErrback (p : Promise) (errback : Error -> State -> State)
  : Promise :=
  fun s =>
    match p s with
    | (s1, Resolved) => (s1, Resolved)
    | (s1, Rejected e) => (errback e s1, Resolved)
    end.

(** Modelled from the spec: [webdriver.promise.Promise.then] is not in the
    source file.  [promise.then(callback)] is [onSuccess(next)] for a
    callback that returns nothing. *)
Definition then_ (p : Promise) (callback : State -> State) : Promise :=
  fun s =>
    match p s with
    | (s1, Resolved) => (callback s1, Resolved)
    | (s1, Rejected e) => (s1, Rejected e)
    end.

(** A task handed to the scheduler: run on a state, it leaves a state and
    either returns or throws. *)
Definition Task : Type := State -> State * Settlement.

(** Modelled from the spec: [goog.bind] is not in the source file.
    [goog.bind(fn, scope)] is "fn bound to scope", the function that calls
    [fn] with [scope] as receiver.  The call is recorded with the function
    and its receiver; the clock advances by the time the call took. *)
Definition goog_bind (fn : Fn) (receiver : Scope) : Task :=
  fun s =>
    let r := fn receiver (heap s) in
    (set_now (now s + elapsed r) (set_heap (heap_after r) (emit (EvCall fn receiver) s)),
     settled r).

(** Modelled from the spec: [webdriver.promise.Application] is not in the
    source file.  [scheduleAndWaitForIdle] "submits fn ... as a task to the
    shared scheduler tagged with description, then suspends until the
    scheduler signals it has drained all pending work ... Returns a Settlement
    that is either Ok or Err(error) ... carrying the thrown value". *)
Definition scheduleAndWaitForIdle (description : string) (task : Task)
  : Promise :=
  fun s =>
    let (s1, r) := task (emit (EvSchedule description) s) in
    (emit (EvIdle description r) s1, r).

(** ** The driver *)

(** [webdriver.TestCase.prototype.runSingleTest_], with its local function
    [scheduleAndWait]. *)
Definition scheduleAndWait (test : Test) (description : string) (fn : Fn)
  : unit -> Promise :=
  fun _ => scheduleAndWaitForIdle description (goog_bind fn (scope test)).

Definition runSingleTest_ (this : TestCase) (test : Test)
    (onError : Error -> State -> State) : Promise :=
  addErrback
    (addCallback
       (addErrback
          (addCallback
             (scheduleAndWait test "setUp()" (setUp this) tt)
             (scheduleAndWait test (name test ++ "()") (ref test)))
          onError)
       (scheduleAndWait test "tearDown()" (tearDown this)))
    onError.

(** The local function [onError] of [cycleTests]; [hadError] is the closure
    variable of the invocation, held in cell [cell]. *)
Definition onError (test : Test) (cell : nat) (e : Error) (s : State) : State :=
  doError test e (set_cells (<[cell := true]> (cells s)) s).

(** [webdriver.TestCase.prototype.cycleTests]. *)
Definition cycleTests (this : TestCase) (s : State) : State :=
  match next s with
  | (s0, None) => finalize s0
  | (s0, Some test) =>
      let s1 := emit (EvCurrentTestName (name test))
                     (set_currentTestName (name test) s0) in
      let s2 := emit (EvRunCount (S (runCount s1)))
                     (set_runCount (S (runCount s1)) s1) in
      let s3 := log ("Running test: " ++ name test) s2 in
      (* var hadError = false; *)
      let hadError := length (cells s3) in
      let s4 := set_cells (cells s3 ++ [false]) s3 in
      fst (then_ (runSingleTest_ this test (onError test hadError))
             (fun s5 =>
                let s6 := match cells s5 !! hadError with
                          | Some true => s5
                          | _ => doSuccess test s5
                          end in
                timeout CbCycleTests 100 s6)
             s4)
  end.

(** ** The event loop *)

Definition runCallback (this : TestCase) (cb : Callback) (s : State) : State :=
  match cb with
  | CbCycleTests => cycleTests this s
  end.

(** Modelled from the spec: the timers behind [timeout] are not in the source
    file.  A callback is "to run after delayMs": the event loop takes the
    earliest pending timer and lets the clock reach its due time. *)
Definition dequeue (s : State) : option (Callback * State) :=
  match timers s with
  | [] => None
  | (due, cb) :: rest =>
      Some (cb, set_now (Nat.max (now s) due) (set_timers rest s))
  end.

(** One turn of the event loop. *)
Definition fire (this : TestCase) (s : State) : option State :=
  match dequeue s with
  | None => None
  | Some (cb, s') => Some (runCallback this cb s')
  end.

Fixpoint runLoop (this : TestCase) (fuel : nat) (s : State) : State :=
  match fuel with
  | 0 => s
  | S fuel' =>
      match fire this s with
      | None => s
      | Some s' => runLoop this fuel' s'
      end
  end.

End Model.

Arguments Resolved {Error}.
Arguments Rejected {Error} e.
Arguments EvCurrentTestName {Scope World Error} n.
Arguments EvRunCount {Scope World Error} count.
Arguments EvLog {Scope World Error} msg.
Arguments EvSchedule {Scope World Error} description.
Arguments EvIdle {Scope World Error} description r.
Arguments EvTimeout {Scope World Error} cb delay.
Arguments EvFinalize {Scope World Error}.

(** ** Reading a trace *)

Section Reading.

Context {Scope World Error : Type}.

Local Abbreviation Event := (Event Scope World Error).
Local Abbreviation Test := (Test Scope World Error).
Local Abbreviation Fn := (Fn Scope World Error).
Local Abbreviation State := (State Scope World Error).
Local Abbreviation TestCase := (TestCase Scope World Error).

Definition events (tr : list (nat * Event)) : list Event := map snd tr.

(** The events a call of [cycleTests] on [s] adds to the trace. *)
Definition cycle_events (this : TestCase) (s : State) : list (nat * Event) :=
  drop (length (trace s)) (trace (cycleTests this s)).

(** The function calls, each with its receiver. *)
Definition calls (l : list Event) : list (Fn * Scope) :=
  omap (fun e => match e with EvCall f r => Some (f, r) | _ => None end) l.

(** The events of the scheduler: submissions, calls and settlements. *)
Definition phaseEvents (l : list Event) : list Event :=
  omap (fun e => match e with
                 | EvSchedule _ | EvCall _ _ | EvIdle _ _ => Some e
                 | _ => None
                 end) l.

(** The values the scheduled tasks were rejected with. *)
Definition phaseErrors (l : list Event) : list Error :=
  omap (fun e => match e with EvIdle _ (Rejected x) => Some x | _ => None end) l.

Definition doErrors (l : list Event) : list (Test * Error) :=
  omap (fun e => match e with EvDoError t x => Some (t, x) | _ => None end) l.

Definition doSuccesses (l : list Event) : list Test :=
  omap (fun e => match e with EvDoSuccess t => Some t | _ => None end) l.

Definition logs (l : list Event) : list string :=
  omap (fun e => match e with EvLog m => Some m | _ => None end) l.

Definition runCounts (l : list Event) : list nat :=
  omap (fun e => match e with EvRunCount n => Some n | _ => None end) l.

Definition timeouts (l : list Event) : list (Callback * nat) :=
  omap (fun e => match e with EvTimeout cb d => Some (cb, d) | _ => None end) l.

Definition finalizes (l : list Event) : nat :=
  length (omap (fun e => match e with EvFinalize => Some tt | _ => None end) l).

(** When the scheduled tasks settled, each with its description. *)
Definition settlements (tr : list (nat * Event)) : list (nat * string) :=
  omap (fun e => match e with
                 | (at_, EvIdle d _) => Some (at_, d)
                 | _ => None
                 end) tr.

End Reading.

(** ** The phases of one cycle *)

Section Phases.

Context {Scope World Error : Type}.

Local Abbreviation Event := (Event Scope World Error).
Local Abbreviation Test := (Test Scope World Error).
Local Abbreviation Fn := (Fn Scope World Error).
Local Abbreviation State := (State Scope World Error).
Local Abbreviation TestCase := (TestCase Scope World Error).
Local Abbreviation Outcome := (Outcome World Error).

Inductive Phase : Type := SetUp | Body | TearDown.

(** The function each phase calls, as the documentation of [runSingleTest_]
    has it: [this.setUp], [test.ref], [this.tearDown]. *)
Definition phaseFn (this : TestCase) (t : Test) (ph : Phase) : Fn :=
  match ph with
  | SetUp => setUp this
  | Body => ref t
  | TearDown => tearDown this
  end.

Definition phaseDescription (t : Test) (ph : Phase) : string :=
  match ph with
  | SetUp => "setUp()"
  | Body => name t ++ "()"
  | TearDown => "tearDown()"
  end.

(** What the phases of the cycle of [t] do when the cycle starts in [s]: each
    phase works on the heap the phase before it left. *)
Definition setUpOutcome (this : TestCase) (t : Test) (s : State) : Outcome :=
  setUp this (scope t) (heap s).

Definition bodyOutcome (this : TestCase) (t : Test) (s : State) : Outcome :=
  ref t (scope t) (heap_after (setUpOutcome this t s)).

Definition tearDownOutcome (this : TestCase) (t : Test) (s : State) : Outcome :=
  tearDown this (scope t)
    (match settled (setUpOutcome this t s) with
     | Resolved => heap_after (bodyOutcome this t s)
     | Rejected _ => heap_after (setUpOutcome this t s)
     end).

Definition phaseOutcome (this : TestCase) (t : Test) (s : State) (ph : Phase)
  : Outcome :=
  match ph with
  | SetUp => setUpOutcome this t s
  | Body => bodyOutcome this t s
  | TearDown => tearDownOutcome this t s
  end.

(** The phases of a cycle as the claims describe them: set-up, the body when
    set-up succeeded, tear-down. *)
Definition phasesRun (this : TestCase) (t : Test) (s : State) : list Phase :=
  match settled (setUpOutcome this t s) with
  | Resolved => [SetUp; Body; TearDown]
  | Rejected _ => [SetUp; TearDown]
  end.

(** What the scheduler records of one phase: the submission, the call and the
    settlement. *)
Definition phaseBlock (this : TestCase) (t : Test) (s : State) (ph : Phase)
  : list Event :=
  [EvSchedule (phaseDescription t ph);
   EvCall (phaseFn this t ph) (scope t);
   EvIdle (phaseDescription t ph) (settled (phaseOutcome this t s ph))].

(** The values the phases of the cycle throw, in phase order. *)
Definition thrown (this : TestCase) (t : Test) (s : State) : list Error :=
  omap (fun ph => match settled (phaseOutcome this t s ph) with
                  | Resolved => None
                  | Rejected e => Some e
                  end)
       (phasesRun this t s).

End Phases.

(** ** The flow the documentation gives *)

Section DocumentedFlow.

Context {Scope World Error : Type}.

Local Abbreviation Test := (Test Scope World Error).
Local Abbreviation State := (State Scope World Error).
Local Abbreviation TestCase := (TestCase Scope World Error).
Local Abbreviation Promise := (Promise Scope World Error).
Local Abbreviation Event := (Event Scope World Error).
Local Abbreviation Fn := (Fn Scope World Error).

(** [a; b]: the second statement runs when the first did not throw. *)
Definition sequence (a b : Promise) : Promise :=
  fun s =>
    match a s with
    | (s1, Resolved) => b s1
    | (s1, Rejected e) => (s1, Rejected e)
    end.

(** [try { block } catch (ex) { handler(ex) } finally { finalizer }], for a
    handler that returns: the finalizer runs however the block completed,
    and what it throws is thrown on. *)
Definition tryCatchFinally (block : Promise)
    (handler : Error -> State -> State) (finalizer : Promise) : Promise :=
  fun s =>
    let s2 := match block s with
              | (s1, Resolved) => s1
              | (s1, Rejected ex) => handler ex s1
              end in
    finalizer s2.

(** [try { block } catch (e) { handler(e) }], for a handler that returns. *)
Definition tryCatch (block : Promise) (handler : Error -> State -> State)
  : Promise :=
  fun s =>
    match block s with
    | (s1, Resolved) => (s1, Resolved)
    | (s1, Rejected e) => (handler e s1, Resolved)
    end.

(** The "basic test flow" the documentation of [runSingleTest_] says the
    function models:
    [try { this.setUp.call(test.scope); test.ref.call(test.scope); }
     catch (ex) { onError(ex); }
     finally { try { this.tearDown.call(test.scope); }
               catch (e) { onError(e); } }],
    each call scheduled and waited for as [scheduleAndWait] does. *)
Definition basicTestFlow (this : TestCase) (test : Test)
    (onError : Error -> State -> State) : Promise :=
  tryCatchFinally
    (sequence (scheduleAndWait test "setUp()" (setUp this) tt)
              (scheduleAndWait test (name test ++ "()") (ref test) tt))
    onError
    (tryCatch (scheduleAndWait test "tearDown()" (tearDown this) tt) onError).

(** What the driver reports when a phase has settled. *)
Definition report (t : Test) (r : Settlement Error) : list Event :=
  match r with
  | Resolved => []
  | Rejected e => [EvDoError t e]
  end.


End DocumentedFlow.

(** ** Scenarios *)

Module Scenario.

(** Receivers are named, the heap counts the calls made on it and thrown
    values are strings. *)
Definition noop : Fn string nat string :=
  fun _ w => mkOutcome (S w) Resolved 7.

Definition throws (msg : string) : Fn string nat string :=
  fun _ w => mkOutcome (S w) (Rejected msg) 3.

Definition t1 : Test string nat string := mkTest "t1" (throws "boom") "scope1"%string.
Definition t2 : Test string nat string := mkTest "t2" noop "scope2"%string.

Definition plain : TestCase string nat string := mkTestCase noop noop.
Definition badSetUp : TestCase string nat string :=
  mkTestCase (throws "bad") noop.
Definition badTearDown : TestCase string nat string :=
  mkTestCase noop (throws "late").
Definition badBoth : TestCase string nat string :=
  mkTestCase (throws "bad") (throws "bad").

(** The state the test runner starts from. *)
Definition start (l : list (Test string nat string)) : State string nat string :=
  mkState l 0 "" 0 0 [] [] [].

End Scenario.

(** ** Properties *)

Lemma cell_fresh_read (l : list bool) (b : bool) :
  (l ++ [b]) !! length l = Some b.
Proof. induction l as [|x l IH]; [reflexivity | exact IH]. Qed.

Lemma cell_fresh_write (l : list bool) (b b' : bool) :
  <[length l := b']> (l ++ [b]) = l ++ [b'].
Proof. induction l as [|x l IH]; [reflexivity | simpl; f_equal; exact IH]. Qed.

Ltac unfold_cycle :=
  unfold cycle_events, cycleTests, next, then_, runSingleTest_, addErrback,
    addCallback, scheduleAndWait, scheduleAndWaitForIdle, goog_bind, onError,
    doError, doSuccess, log, timeout, finalize.

Ltac unfold_phases :=
  unfold thrown, phasesRun, phaseBlock, phaseOutcome, tearDownOutcome,
    bodyOutcome, setUpOutcome in *.

Ltac tidy :=
  simpl;
  rewrite ?cell_fresh_write, ?cell_fresh_read; simpl;
  rewrite <- ?app_assoc; simpl;
  rewrite ?drop_app_length; simpl.

(** Runs the cycle of the first pending test symbolically, one case for each
    way its phases can settle. *)
Ltac run_cycle Ht :=
  unfold_phases; unfold_cycle; rewrite Ht; simpl;
  repeat match goal with
         | H : settled ?o = _ |- context [settled ?o] => rewrite H; simpl
         | |- context [match settled ?o with _ => _ end] =>
             let E := fresh "E" in destruct (settled o) eqn:E; simpl
         end;
  tidy.

Lemma cycle_trace_extends {Scope World Error : Type}
    (this : TestCase Scope World Error) (s : State Scope World Error) :
  trace (cycleTests this s) = trace s ++ cycle_events this s.
Proof.
  destruct (tests s) as [|t rest] eqn:Ht.
  - unfold_cycle. rewrite Ht. tidy. reflexivity.
  - run_cycle Ht; reflexivity.
Qed.

Lemma cycle_events_not_before {Scope World Error : Type}
    (this : TestCase Scope World Error) (s : State Scope World Error) :
  Forall (fun e => now s <= fst e) (cycle_events this s).
Proof.
  destruct (tests s) as [|t rest] eqn:Ht.
  - unfold_cycle. rewrite Ht. tidy. repeat constructor.
  - run_cycle Ht; repeat constructor; simpl; lia.
Qed.

Lemma cycle_state_after {Scope World Error : Type}
    (this : TestCase Scope World Error) (s : State Scope World Error)
    (t : Test Scope World Error) (rest : list (Test Scope World Error)) :
  tests s = t :: rest ->
  tests (cycleTests this s) = rest
  /\ timers (cycleTests this s)
     = insert_timer (now (cycleTests this s) + 100) CbCycleTests (timers s)
  /\ cells (cycleTests this s)
     = cells s ++ [match thrown this t s with [] => false | _ :: _ => true end]
  /\ runCount (cycleTests this s) = S (runCount s)
  /\ finalizes (events (cycle_events this s)) = 0.
Proof.
  intros Ht. run_cycle Ht; repeat split; reflexivity.
Qed.

Lemma all_resolved_reports_success {Scope World Error : Type}
    (this : TestCase Scope World Error) (s : State Scope World Error)
    (t : Test Scope World Error) (rest : list (Test Scope World Error)) :
  tests s = t :: rest ->
  settled (setUpOutcome this t s) = Resolved ->
  settled (bodyOutcome this t s) = Resolved ->
  settled (tearDownOutcome this t s) = Resolved ->
  doSuccesses (events (cycle_events this s)) = [t]
  /\ doErrors (events (cycle_events this s)) = []
  /\ cells (cycleTests this s) = cells s ++ [false].
Proof.
  intros Ht H1 H2 H3. unfold_phases. rewrite H1 in H3.
  run_cycle Ht; repeat split; reflexivity.
Qed.


Lemma finalizes_app {Scope World Error : Type}
    (l1 l2 : list (Event Scope World Error)) :
  finalizes (l1 ++ l2) = finalizes l1 + finalizes l2.
Proof. unfold finalizes. rewrite omap_app, length_app. reflexivity. Qed.

Lemma runLoop_idle {Scope World Error : Type}
    (this : TestCase Scope World Error) (fuel : nat)
    (s : State Scope World Error) :
  timers s = [] -> runLoop this fuel s = s.
Proof.
  intros Htm. destruct fuel as [|fuel]; [reflexivity|].
  simpl. unfold fire, dequeue. rewrite Htm. reflexivity.
Qed.

(** C1. In the cycle of a test the scheduler sees set-up, then the body, then
    tear-down, each submitted only when the phase before it has settled; the
    body is there exactly when set-up resolved, and tear-down is there once
    however set-up and the body settled. *)
Theorem phases_in_order {Scope World Error : Type}
    (this : TestCase Scope World Error) (s : State Scope World Error)
    (t : Test Scope World Error) (rest : list (Test Scope World Error)) :
  tests s = t :: rest ->
  phaseEvents (events (cycle_events this s))
  = concat (map (phaseBlock this t s) (phasesRun this t s)).
Proof.
  intros Ht. run_cycle Ht; reflexivity.
Qed.

Lemma phases_in_order_witness :
  phaseEvents (events (cycle_events Scenario.plain (Scenario.start [Scenario.t1])))
  = concat (map (phaseBlock Scenario.plain Scenario.t1 (Scenario.start [Scenario.t1]))
                [SetUp; Body; TearDown]).
Proof.
  exact (phases_in_order Scenario.plain (Scenario.start [Scenario.t1]) eq_refl).
Defined.

(** C2, as the claim has it, fails: when tear-down throws the value set-up
    threw, [doError] is called with that value twice.  Here the calls of
    [doError] that carry [E] are counted over a cycle whose set-up and
    tear-down both throw ["bad"]. *)
Lemma setUp_error_reported_once_fails :
  ~ (forall (this : TestCase string nat string) (s : State string nat string)
            (t : Test string nat string) (rest : list (Test string nat string))
            (E : string),
        tests s = t :: rest ->
        settled (setUpOutcome this t s) = Rejected E ->
        length (List.filter (fun p => String.eqb (snd p) E)
                  (doErrors (events (cycle_events this s)))) = 1).
Proof.
  intros H.
  specialize (H Scenario.badBoth (Scenario.start [Scenario.t2]) Scenario.t2 []
                "bad"%string eq_refl eq_refl).
  vm_compute in H. discriminate H.
Qed.

(** C2, amended. When set-up fails with [E] the body is not called and
    tear-down is called once; [doError(test, E)] is the first report of the
    cycle, the only one when tear-down resolves, and followed by
    [doError(test, E2)] when tear-down fails with [E2]. *)
Theorem setUp_failure_skips_body {Scope World Error : Type}
    (this : TestCase Scope World Error) (s : State Scope World Error)
    (t : Test Scope World Error) (rest : list (Test Scope World Error))
    (E : Error) :
  tests s = t :: rest ->
  settled (setUpOutcome this t s) = Rejected E ->
  calls (events (cycle_events this s))
  = [(setUp this, scope t); (tearDown this, scope t)]
  /\ doErrors (events (cycle_events this s))
     = (t, E) :: match settled (tearDownOutcome this t s) with
                 | Resolved => []
                 | Rejected E2 => [(t, E2)]
                 end.
Proof.
  intros Ht H1. run_cycle Ht; split; reflexivity.
Qed.

Lemma setUp_failure_skips_body_witness :
  calls (events (cycle_events Scenario.badSetUp (Scenario.start [Scenario.t2])))
  = [(Scenario.throws "bad", "scope2"%string); (Scenario.noop, "scope2"%string)]
  /\ doErrors (events (cycle_events Scenario.badSetUp (Scenario.start [Scenario.t2])))
     = [(Scenario.t2, "bad"%string)].
Proof.
  exact (setUp_failure_skips_body Scenario.badSetUp (Scenario.start [Scenario.t2])
           (E := "bad"%string) eq_refl eq_refl).
Defined.

(** C3. When the body fails with [E1] and tear-down fails with [E2],
    [doError] is called twice, with [E1] and then with [E2], and [doSuccess]
    is not called. *)
Theorem body_and_tearDown_errors_both_reported {Scope World Error : Type}
    (this : TestCase Scope World Error) (s : State Scope World Error)
    (t : Test Scope World Error) (rest : list (Test Scope World Error))
    (E1 E2 : Error) :
  tests s = t :: rest ->
  settled (setUpOutcome this t s) = Resolved ->
  settled (bodyOutcome this t s) = Rejected E1 ->
  settled (tearDownOutcome this t s) = Rejected E2 ->
  doErrors (events (cycle_events this s)) = [(t, E1); (t, E2)]
  /\ doSuccesses (events (cycle_events this s)) = [].
Proof.
  intros Ht H1 H2 H3. unfold_phases. rewrite H1 in H3.
  run_cycle Ht; split; reflexivity.
Qed.

Lemma body_and_tearDown_errors_both_reported_witness :
  doErrors (events (cycle_events Scenario.badTearDown (Scenario.start [Scenario.t1])))
  = [(Scenario.t1, "boom"%string); (Scenario.t1, "late"%string)]
  /\ doSuccesses (events (cycle_events Scenario.badTearDown (Scenario.start [Scenario.t1])))
     = [].
Proof.
  exact (body_and_tearDown_errors_both_reported Scenario.badTearDown
           (Scenario.start [Scenario.t1]) (E1 := "boom"%string) (E2 := "late"%string)
           eq_refl eq_refl eq_refl eq_refl).
Defined.

(** C4. In the cycle of a test [doSuccess] is called once when no phase threw
    and not at all when one did; when set-up, the body and tear-down all
    resolve it is called once and [doError] is not called. *)
Theorem doSuccess_iff_no_phase_error {Scope World Error : Type}
    (this : TestCase Scope World Error) (s : State Scope World Error)
    (t : Test Scope World Error) (rest : list (Test Scope World Error)) :
  tests s = t :: rest ->
  phaseErrors (events (cycle_events this s)) = thrown this t s
  /\ doSuccesses (events (cycle_events this s))
     = match thrown this t s with
       | [] => [t]
       | _ :: _ => []
       end
  /\ (settled (setUpOutcome this t s) = Resolved ->
      settled (bodyOutcome this t s) = Resolved ->
      settled (tearDownOutcome this t s) = Resolved ->
      doSuccesses (events (cycle_events this s)) = [t]
      /\ doErrors (events (cycle_events this s)) = []).
Proof.
  intros Ht. split; [|split].
  - run_cycle Ht; reflexivity.
  - run_cycle Ht; reflexivity.
  - intros H1 H2 H3.
    destruct (all_resolved_reports_success this s Ht H1 H2 H3) as (Hok & Herr & _).
    split; assumption.
Qed.

Lemma doSuccess_iff_no_phase_error_witness :
  phaseErrors (events (cycle_events Scenario.plain (Scenario.start [Scenario.t2])))
  = []
  /\ doSuccesses (events (cycle_events Scenario.plain (Scenario.start [Scenario.t2])))
     = [Scenario.t2]
  /\ (settled (setUpOutcome Scenario.plain Scenario.t2 (Scenario.start [Scenario.t2]))
      = Resolved ->
      settled (bodyOutcome Scenario.plain Scenario.t2 (Scenario.start [Scenario.t2]))
      = Resolved ->
      settled (tearDownOutcome Scenario.plain Scenario.t2 (Scenario.start [Scenario.t2]))
      = Resolved ->
      doSuccesses (events (cycle_events Scenario.plain (Scenario.start [Scenario.t2])))
      = [Scenario.t2]
      /\ doErrors (events (cycle_events Scenario.plain (Scenario.start [Scenario.t2])))
         = []).
Proof.
  exact (doSuccess_iff_no_phase_error Scenario.plain (Scenario.start [Scenario.t2])
           eq_refl).
Defined.

(** C5. When the iterator has no test left, [cycleTests] calls [finalize]
    and nothing else: no phase is submitted, no timer is set, the counters
    stay as they were and, with no timer pending, the event loop has nothing
    left to run. *)
Theorem exhausted_iterator_finalizes {Scope World Error : Type}
    (this : TestCase Scope World Error) (s : State Scope World Error) :
  tests s = [] ->
  events (cycle_events this s) = [EvFinalize]
  /\ timers (cycleTests this s) = timers s
  /\ runCount (cycleTests this s) = runCount s
  /\ heap (cycleTests this s) = heap s
  /\ (timers s = [] ->
      forall fuel : nat,
        fire this (cycleTests this s) = None
        /\ runLoop this fuel (cycleTests this s) = cycleTests this s).
Proof.
  intros Ht. unfold_cycle. rewrite Ht. tidy.
  do 4 (split; [reflexivity|]).
  intros Htm fuel. split.
  - unfold fire, dequeue. simpl. rewrite Htm. reflexivity.
  - destruct fuel as [|fuel]; [reflexivity|].
    unfold runLoop, fire, dequeue. simpl. rewrite Htm. reflexivity.
Qed.

Lemma exhausted_iterator_finalizes_witness :
  events (cycle_events Scenario.plain (Scenario.start [])) = [EvFinalize]
  /\ timers (cycleTests Scenario.plain (Scenario.start [])) = []
  /\ runCount (cycleTests Scenario.plain (Scenario.start [])) = 0
  /\ heap (cycleTests Scenario.plain (Scenario.start [])) = 0
  /\ (timers (Scenario.start []) = [] ->
      forall fuel : nat,
        fire Scenario.plain (cycleTests Scenario.plain (Scenario.start [])) = None
        /\ runLoop Scenario.plain fuel (cycleTests Scenario.plain (Scenario.start []))
           = cycleTests Scenario.plain (Scenario.start [])).
Proof.
  exact (exhausted_iterator_finalizes Scenario.plain (Scenario.start []) eq_refl).
Defined.

(** C6, as the claim has it, fails: the set-up function a cycle runs is not
    a field of the descriptor the iterator returned.  Two test cases that
    differ in [this.setUp] run different set-up functions for the same
    descriptor, so no way of reading a set-up function off the descriptor
    gives the first call of every cycle. *)
Lemma setUp_is_not_read_from_the_descriptor :
  ~ (exists setUpField : Test string nat string -> Fn string nat string,
       forall (this : TestCase string nat string) (s : State string nat string)
              (t : Test string nat string) (rest : list (Test string nat string)),
         tests s = t :: rest ->
         head (calls (events (cycle_events this s)))
         = Some (setUpField t, scope t)).
Proof.
  intros [f H].
  pose proof (H Scenario.plain (Scenario.start [Scenario.t2]) Scenario.t2 []
                eq_refl) as Ha.
  pose proof (H Scenario.badSetUp (Scenario.start [Scenario.t2]) Scenario.t2 []
                eq_refl) as Hb.
  vm_compute in Ha, Hb.
  pose proof (eq_trans Ha (eq_sym Hb)) as Hf.
  apply (f_equal (fun o => match o with
                           | Some (g, _) => settled (g "scope2"%string 0)
                           | None => Resolved
                           end)) in Hf.
  discriminate Hf.
Qed.

(** C6, amended. The body a cycle runs is the [ref] field of the test the
    iterator returned; set-up and tear-down are the test case's own
    [this.setUp] and [this.tearDown]; each is called with the [scope] field
    of that test as receiver. *)
Theorem phases_called_on_test_scope {Scope World Error : Type}
    (this : TestCase Scope World Error) (s : State Scope World Error)
    (t : Test Scope World Error) (rest : list (Test Scope World Error)) :
  tests s = t :: rest ->
  calls (events (cycle_events this s))
  = match settled (setUpOutcome this t s) with
    | Resolved =>
        [(setUp this, scope t); (ref t, scope t); (tearDown this, scope t)]
    | Rejected _ =>
        [(setUp this, scope t); (tearDown this, scope t)]
    end.
Proof.
  intros Ht. run_cycle Ht; reflexivity.
Qed.

Lemma phases_called_on_test_scope_witness :
  calls (events (cycle_events Scenario.plain (Scenario.start [Scenario.t1])))
  = [(Scenario.noop, "scope1"%string);
     (Scenario.throws "boom", "scope1"%string);
     (Scenario.noop, "scope1"%string)].
Proof.
  exact (phases_called_on_test_scope Scenario.plain (Scenario.start [Scenario.t1])
           eq_refl).
Defined.

(** C8. Each value a phase throws is the error argument of a [doError] call
    for the test, in phase order and unchanged; the promise of
    [runSingleTest_] is resolved whatever the phases threw, and the cycle
    ends by setting the timer for the next one. *)
Theorem phase_errors_passed_to_doError {Scope World Error : Type}
    (this : TestCase Scope World Error) (s : State Scope World Error)
    (t : Test Scope World Error) (rest : list (Test Scope World Error)) :
  tests s = t :: rest ->
  doErrors (events (cycle_events this s)) = map (pair t) (thrown this t s)
  /\ phaseErrors (events (cycle_events this s)) = thrown this t s
  /\ (forall (test : Test Scope World Error) (handler : Error -> _ -> _)
             (s' : State Scope World Error),
         snd (runSingleTest_ this test handler s') = Resolved)
  /\ last (events (cycle_events this s)) = Some (EvTimeout CbCycleTests 100).
Proof.
  intros Ht.
  assert (Hresolved : forall (test : Test Scope World Error)
                        (handler : Error -> _ -> _) (s' : State Scope World Error),
             snd (runSingleTest_ this test handler s') = Resolved).
  { intros test handler s'. unfold_cycle. simpl.
    repeat match goal with
           | |- context [match settled ?o with _ => _ end] =>
               destruct (settled o); simpl
           end; reflexivity. }
  revert Hresolved.
  run_cycle Ht; intros Hresolved; repeat split; try reflexivity; exact Hresolved.
Qed.

Lemma phase_errors_passed_to_doError_witness :
  doErrors (events (cycle_events Scenario.badTearDown (Scenario.start [Scenario.t1])))
  = [(Scenario.t1, "boom"%string); (Scenario.t1, "late"%string)].
Proof.
  exact (proj1 (phase_errors_passed_to_doError Scenario.badTearDown
                  (Scenario.start [Scenario.t1]) eq_refl)).
Defined.

(** C9. The cycle of a test writes the incremented run count once and logs
    ["Running test: " + test.name] once, both before set-up is submitted. *)
Theorem counter_and_log_before_setUp {Scope World Error : Type}
    (this : TestCase Scope World Error) (s : State Scope World Error)
    (t : Test Scope World Error) (rest : list (Test Scope World Error)) :
  tests s = t :: rest ->
  take 4 (events (cycle_events this s))
  = [EvCurrentTestName (name t);
     EvRunCount (S (runCount s));
     EvLog ("Running test: " ++ name t);
     EvSchedule "setUp()"]
  /\ runCounts (events (cycle_events this s)) = [S (runCount s)]
  /\ logs (events (cycle_events this s)) = ["Running test: " ++ name t]%string
  /\ runCount (cycleTests this s) = S (runCount s).
Proof.
  intros Ht. run_cycle Ht; repeat split; reflexivity.
Qed.

Lemma counter_and_log_before_setUp_witness :
  take 4 (events (cycle_events Scenario.plain (Scenario.start [Scenario.t1])))
  = [EvCurrentTestName "t1"; EvRunCount 1; EvLog "Running test: t1";
     EvSchedule "setUp()"]
  /\ runCounts (events (cycle_events Scenario.plain (Scenario.start [Scenario.t1])))
     = [1]
  /\ logs (events (cycle_events Scenario.plain (Scenario.start [Scenario.t1])))
     = ["Running test: t1"%string]
  /\ runCount (cycleTests Scenario.plain (Scenario.start [Scenario.t1])) = 1.
Proof.
  exact (counter_and_log_before_setUp Scenario.plain (Scenario.start [Scenario.t1])
           eq_refl).
Defined.
(** C7. The cycle of a test sets one timer, for [cycleTests] with delay 100,
    as its last action, at the time tear-down settled.  When no other timer
    is pending, the next cycle is run by that timer alone: the event loop
    starts it 100 time units after tear-down settled, again with no timer
    pending, so every event of the next cycle, the submission of its set-up
    among them, comes at least 100 time units after every event of this
    one. *)
Theorem next_cycle_waits_for_delay {Scope World Error : Type}
    (this : TestCase Scope World Error) (s : State Scope World Error)
    (t : Test Scope World Error) (rest : list (Test Scope World Error)) :
  tests s = t :: rest ->
  last (settlements (cycle_events this s))
  = Some (now (cycleTests this s), "tearDown()"%string)
  /\ Forall (fun e => fst e <= now (cycleTests this s)) (cycle_events this s)
  /\ timeouts (events (cycle_events this s)) = [(CbCycleTests, 100)]
  /\ last (cycle_events this s)
     = Some (now (cycleTests this s), EvTimeout CbCycleTests 100)
  /\ timers (cycleTests this s)
     = insert_timer (now (cycleTests this s) + 100) CbCycleTests (timers s)
  /\ (timers s = [] ->
      exists s' : State Scope World Error,
        dequeue (cycleTests this s) = Some (CbCycleTests, s')
        /\ fire this (cycleTests this s) = Some (cycleTests this s')
        /\ tests s' = rest
        /\ timers s' = []
        /\ now s' = now (cycleTests this s) + 100
        /\ trace (cycleTests this s')
           = trace (cycleTests this s) ++ cycle_events this s'
        /\ Forall (fun e => now (cycleTests this s) + 100 <= fst e)
                  (cycle_events this s')).
Proof.
  intros Ht.
  destruct (cycle_state_after this s Ht) as (Hts & Htimers & _).
  assert (Hcycle :
    last (settlements (cycle_events this s))
    = Some (now (cycleTests this s), "tearDown()"%string)
    /\ Forall (fun e => fst e <= now (cycleTests this s)) (cycle_events this s)
    /\ timeouts (events (cycle_events this s)) = [(CbCycleTests, 100)]
    /\ last (cycle_events this s)
       = Some (now (cycleTests this s), EvTimeout CbCycleTests 100)).
  { clear Htimers Hts.
    run_cycle Ht; repeat split; try reflexivity; repeat constructor; simpl; lia. }
  destruct Hcycle as (Hc1 & Hc2 & Hc3 & Hc4).
  split; [exact Hc1|]. split; [exact Hc2|]. split; [exact Hc3|].
  split; [exact Hc4|]. split; [exact Htimers|].
  intros Htm. rewrite Htm in Htimers. simpl in Htimers.
  eexists. unfold fire, dequeue. rewrite Htimers.
  split; [reflexivity|]. split; [reflexivity|].
  split; [exact Hts|]. split; [reflexivity|].
  split; [simpl; lia|].
  split.
  - rewrite cycle_trace_extends. reflexivity.
  - eapply Forall_impl; [apply cycle_events_not_before|].
    simpl. intros e He. lia.
Qed.

Lemma next_cycle_waits_for_delay_witness :
  last (settlements
          (cycle_events Scenario.plain (Scenario.start [Scenario.t1; Scenario.t2])))
  = Some (17, "tearDown()"%string).
Proof.
  exact (proj1 (next_cycle_waits_for_delay Scenario.plain
                  (Scenario.start [Scenario.t1; Scenario.t2]) eq_refl)).
Defined.

(** C10. Each call of [cycleTests] allocates its own [hadError], initially
    false, and leaves the flags of earlier calls as they were.  Whatever the
    cycle of test N reported, when the phases of test N+1 all resolve its
    cycle calls [doSuccess] once and [doError] not at all. *)
Theorem error_flag_is_per_cycle {Scope World Error : Type}
    (this : TestCase Scope World Error) (s s' : State Scope World Error)
    (t1 t2 : Test Scope World Error) (rest : list (Test Scope World Error)) :
  tests s = t1 :: t2 :: rest ->
  timers s = [] ->
  dequeue (cycleTests this s) = Some (CbCycleTests, s') ->
  settled (setUpOutcome this t2 s') = Resolved ->
  settled (bodyOutcome this t2 s') = Resolved ->
  settled (tearDownOutcome this t2 s') = Resolved ->
  cells (cycleTests this s)
  = cells s ++ [match thrown this t1 s with [] => false | _ :: _ => true end]
  /\ fire this (cycleTests this s) = Some (cycleTests this s')
  /\ cells (cycleTests this s') = cells (cycleTests this s) ++ [false]
  /\ doSuccesses (events (cycle_events this s')) = [t2]
  /\ doErrors (events (cycle_events this s')) = [].
Proof.
  intros Ht Htm Hdq H1 H2 H3.
  destruct (cycle_state_after this s Ht) as (Hts & Htimers & Hcells & _).
  rewrite Htm in Htimers. simpl in Htimers.
  assert (Hs' : tests s' = t2 :: rest /\ cells s' = cells (cycleTests this s)).
  { unfold dequeue in Hdq. rewrite Htimers in Hdq.
    injection Hdq as <-. split; [exact Hts | reflexivity]. }
  destruct Hs' as [Hts' Hcells'].
  destruct (all_resolved_reports_success this s' Hts' H1 H2 H3)
    as (Hok & Herr & Hfresh).
  split; [exact Hcells|]. split.
  - unfold fire. rewrite Hdq. reflexivity.
  - rewrite <- Hcells'. auto.
Qed.

Lemma error_flag_is_per_cycle_witness :
  doSuccesses
    (events (cycle_events Scenario.plain
               (set_now 117 (set_timers []
                  (cycleTests Scenario.plain (Scenario.start [Scenario.t1; Scenario.t2]))))))
  = [Scenario.t2].
Proof.
  refine (proj1 (proj2 (proj2 (proj2
    (error_flag_is_per_cycle Scenario.plain
       (Scenario.start [Scenario.t1; Scenario.t2])
       (s' := set_now 117 (set_timers []
                  (cycleTests Scenario.plain (Scenario.start [Scenario.t1; Scenario.t2]))))
       (t1 := Scenario.t1) (t2 := Scenario.t2) (rest := [])
       _ _ _ _ _ _))))); vm_compute; reflexivity.
Defined.

(** ** Further properties of the driver *)

Lemma events_app {Scope World Error : Type}
    (l1 l2 : list (nat * Event Scope World Error)) :
  events (l1 ++ l2) = events l1 ++ events l2.
Proof. apply map_app. Qed.

(** The events of one cycle, written out. *)
Lemma cycle_events_closed {Scope World Error : Type}
    (this : TestCase Scope World Error) (s : State Scope World Error)
    (t : Test Scope World Error) (rest : list (Test Scope World Error)) :
  tests s = t :: rest ->
  events (cycle_events this s)
  = [EvCurrentTestName (name t); EvRunCount (S (runCount s));
     EvLog ("Running test: " ++ name t)]
    ++ phaseBlock this t s SetUp
    ++ match settled (setUpOutcome this t s) with
       | Resolved =>
           phaseBlock this t s Body ++ report t (settled (bodyOutcome this t s))
       | Rejected e => [EvDoError t e]
       end
    ++ phaseBlock this t s TearDown
    ++ report t (settled (tearDownOutcome this t s))
    ++ match thrown this t s with
       | [] => [EvDoSuccess t]
       | _ :: _ => []
       end
    ++ [EvTimeout CbCycleTests 100].
Proof.
  intros Ht. unfold report. run_cycle Ht; reflexivity.
Qed.

(** Reads a property of one cycle off its events, one case for each way the
    phases can settle. *)
Ltac by_cycle_events this s Ht :=
  rewrite (cycle_events_closed this s Ht);
  unfold report; unfold_phases; simpl;
  repeat match goal with
         | |- context [match settled ?o with _ => _ end] =>
             let E := fresh "E" in destruct (settled o) eqn:E; simpl
         end;
  try (exfalso; congruence).

(** What one cycle tells about its test, for the properties of a whole run. *)
Lemma cycle_reports {Scope World Error : Type}
    (this : TestCase Scope World Error) (s : State Scope World Error)
    (t : Test Scope World Error) (rest : list (Test Scope World Error)) :
  tests s = t :: rest ->
  logs (events (cycle_events this s)) = ["Running test: " ++ name t]%string
  /\ runCounts (events (cycle_events this s)) = [S (runCount s)]
  /\ timeouts (events (cycle_events this s)) = [(CbCycleTests, 100)]
  /\ (doSuccesses (events (cycle_events this s)) = [t]
      \/ exists e, In (t, e) (doErrors (events (cycle_events this s))))
  /\ Forall (eq t) (doSuccesses (events (cycle_events this s)))
  /\ Forall (fun p => fst p = t) (doErrors (events (cycle_events this s)))
  /\ Forall (fun c => snd c = scope t) (calls (events (cycle_events this s))).
Proof.
  intros Ht.
  by_cycle_events this s Ht;
    (split; [reflexivity|]); (split; [reflexivity|]); (split; [reflexivity|]);
    (split; [first [left; reflexivity | right; eexists; simpl; eauto]|]);
    repeat split; repeat constructor.
Qed.

(** A property of the events of a whole run follows from what it says of
    the last call of [cycleTests] and of one cycle before a run. *)
Lemma run_trace_induction {Scope World Error : Type}
    (this : TestCase Scope World Error)
    (P : State Scope World Error -> list (Event Scope World Error) -> Prop) :
  (forall s, tests s = [] -> P s [EvFinalize]) ->
  (forall s s' t rest evs,
      tests s = t :: rest ->
      tests s' = rest ->
      runCount s' = S (runCount s) ->
      P s' evs ->
      P s (events (cycle_events this s) ++ evs)) ->
  forall (extra n : nat) (s : State Scope World Error),
    length (tests s) = n ->
    timers s = [] ->
    exists new : list (nat * Event Scope World Error),
      trace (runLoop this (n + extra) (cycleTests this s)) = trace s ++ new
      /\ P s (events new).
Proof.
  intros Hlast Hstep extra.
  induction n as [|n IH]; intros s Hlen Htm.
  - destruct (tests s) as [|t rest] eqn:Ht; [|discriminate Hlen].
    assert (Hc : cycleTests this s = finalize s).
    { unfold cycleTests, next. rewrite Ht. reflexivity. }
    rewrite Hc, runLoop_idle by exact Htm.
    eexists. split; [reflexivity|]. apply Hlast. exact Ht.
  - destruct (tests s) as [|t rest] eqn:Ht; [discriminate Hlen|].
    injection Hlen as Hlen.
    destruct (cycle_state_after this s Ht) as (Hts & Htimers & _ & Hrc & _).
    rewrite Htm in Htimers. simpl in Htimers.
    change (S n + extra) with (S (n + extra)).
    cbn [runLoop]. unfold fire, dequeue. rewrite Htimers.
    cbn [runCallback].
    set (s1 := set_now _ _).
    assert (Hs1 : tests s1 = rest /\ timers s1 = []
                  /\ runCount s1 = S (runCount s)
                  /\ trace s1 = trace s ++ cycle_events this s).
    { subst s1. cbn [tests timers runCount trace set_now set_timers].
      rewrite Hts, Hrc, cycle_trace_extends. auto. }
    destruct Hs1 as (Hts1 & Htm1 & Hrc1 & Htr1).
    rewrite <- Hts1 in Hlen.
    destruct (IH s1 Hlen Htm1) as (new & R1 & R2).
    exists (cycle_events this s ++ new).
    rewrite R1, Htr1, <- app_assoc. split; [reflexivity|].
    rewrite events_app. eapply Hstep; eauto.
Qed.


(** X1. Started with no timer pending, the run fetches every test, one cycle
    after the other, calls [finalize] once and stops: a turn of the event
    loop for each test is enough, and further turns change nothing. *)
Theorem run_finalizes_once {Scope World Error : Type}
    (this : TestCase Scope World Error) (extra : nat) :
  forall (n : nat) (s : State Scope World Error),
    length (tests s) = n ->
    timers s = [] ->
    tests (runLoop this (n + extra) (cycleTests this s)) = []
    /\ timers (runLoop this (n + extra) (cycleTests this s)) = []
    /\ runCount (runLoop this (n + extra) (cycleTests this s)) = runCount s + n
    /\ exists new : list (nat * Event Scope World Error),
         trace (runLoop this (n + extra) (cycleTests this s)) = trace s ++ new
         /\ finalizes (events new) = 1
         /\ last (events new) = Some EvFinalize.
Proof.
  induction n as [|n IH]; intros s Hlen Htm.
  - destruct (tests s) as [|t rest] eqn:Ht; [|discriminate Hlen].
    assert (Hc : cycleTests this s = finalize s).
    { unfold cycleTests, next. rewrite Ht. reflexivity. }
    rewrite Hc, runLoop_idle by exact Htm.
    simpl. rewrite Ht, Htm.
    repeat split; [lia|].
    eexists. split; [reflexivity|]. split; reflexivity.
  - destruct (tests s) as [|t rest] eqn:Ht; [discriminate Hlen|].
    injection Hlen as Hlen.
    destruct (cycle_state_after this s Ht) as (Hts & Htimers & _ & Hrc & Hfin).
    rewrite Htm in Htimers. simpl in Htimers.
    change (S n + extra) with (S (n + extra)).
    cbn [runLoop]. unfold fire, dequeue. rewrite Htimers.
    cbn [runCallback].
    set (s1 := set_now _ _).
    assert (Hs1 : tests s1 = rest /\ timers s1 = []
                  /\ runCount s1 = S (runCount s)
                  /\ trace s1 = trace s ++ cycle_events this s).
    { subst s1. cbn [tests timers runCount trace set_now set_timers].
      rewrite Hts, Hrc, cycle_trace_extends. auto. }
    destruct Hs1 as (Hts1 & Htm1 & Hrc1 & Htr1).
    rewrite <- Hts1 in Hlen.
    destruct (IH s1 Hlen Htm1) as (R1 & R2 & R3 & new & R4 & R5 & R6).
    split; [exact R1|]. split; [exact R2|]. split; [rewrite R3, Hrc1; lia|].
    exists (cycle_events this s ++ new).
    rewrite R4, Htr1, <- app_assoc. split; [reflexivity|].
    unfold events in *. rewrite map_app, finalizes_app.
    rewrite Hfin. split; [exact R5|].
    rewrite last_app, R6. reflexivity.
Qed.

Lemma run_finalizes_once_witness :
  tests (runLoop Scenario.plain (2 + 0)
           (cycleTests Scenario.plain (Scenario.start [Scenario.t1; Scenario.t2])))
  = [].
Proof.
  exact (proj1 (run_finalizes_once Scenario.plain 0
                  (Scenario.start [Scenario.t1; Scenario.t2]) eq_refl eq_refl)).
Defined.

(** X2. Started with no timer pending, a run has one cycle for each test of
    the iterator, in the iterator's order: the log has one "Running test"
    line for each test, in order, the run count is written once for each
    test, going up by one, and one timer with delay 100 is set for each
    test and none when the iterator is exhausted. *)
Theorem run_cycles_once_per_test {Scope World Error : Type}
    (this : TestCase Scope World Error) (extra : nat)
    (s : State Scope World Error) :
  timers s = [] ->
  exists new : list (nat * Event Scope World Error),
    trace (runLoop this (length (tests s) + extra) (cycleTests this s))
    = trace s ++ new
    /\ logs (events new)
       = map (fun t => "Running test: " ++ name t)%string (tests s)
    /\ runCounts (events new) = seq (S (runCount s)) (length (tests s))
    /\ timeouts (events new) = repeat (CbCycleTests, 100) (length (tests s)).
Proof.
  intros Htm.
  apply (run_trace_induction this
           (fun s evs =>
              logs evs = map (fun t => "Running test: " ++ name t)%string (tests s)
              /\ runCounts evs = seq (S (runCount s)) (length (tests s))
              /\ timeouts evs = repeat (CbCycleTests, 100) (length (tests s))));
    [| |reflexivity|exact Htm].
  - intros s0 Ht. rewrite Ht. repeat split; reflexivity.
  - intros s0 s' t rest evs Ht Ht' Hrc (Hl & Hr & Hto).
    destruct (cycle_reports this s0 Ht) as (Hlog & Hcount & Htmo & _).
    unfold logs, runCounts, timeouts in *.
    rewrite !omap_app, Hlog, Hcount, Htmo, Hl, Hr, Hto, Ht, Ht', Hrc.
    repeat split; reflexivity.
Qed.

Lemma run_cycles_once_per_test_witness :
  exists new : list (nat * Event string nat string),
    trace (runLoop Scenario.plain (length (tests (Scenario.start [Scenario.t1; Scenario.t2])) + 0)
             (cycleTests Scenario.plain (Scenario.start [Scenario.t1; Scenario.t2])))
    = trace (Scenario.start [Scenario.t1; Scenario.t2]) ++ new
    /\ logs (events new)
       = map (fun t => "Running test: " ++ name t)%string (tests (Scenario.start [Scenario.t1; Scenario.t2]))
    /\ runCounts (events new)
       = seq (S (runCount (Scenario.start [Scenario.t1; Scenario.t2]))) (length (tests (Scenario.start [Scenario.t1; Scenario.t2])))
    /\ timeouts (events new)
       = repeat (CbCycleTests, 100) (length (tests (Scenario.start [Scenario.t1; Scenario.t2]))).
Proof.
  exact (run_cycles_once_per_test Scenario.plain 0 (Scenario.start [Scenario.t1; Scenario.t2]) eq_refl).
Defined.

(** X3. Started with no timer pending, a run reports every test of the
    iterator, through [doSuccess] or through [doError]; it reports no test
    that is not of the iterator and calls no phase on a receiver that is not
    the scope of one of its tests. *)
Theorem run_reports_every_test {Scope World Error : Type}
    (this : TestCase Scope World Error) (extra : nat)
    (s : State Scope World Error) :
  timers s = [] ->
  exists new : list (nat * Event Scope World Error),
    trace (runLoop this (length (tests s) + extra) (cycleTests this s))
    = trace s ++ new
    /\ (forall t, In t (tests s) ->
          In t (doSuccesses (events new))
          \/ exists e, In (t, e) (doErrors (events new)))
    /\ Forall (fun t => In t (tests s)) (doSuccesses (events new))
    /\ Forall (fun p => In (fst p) (tests s)) (doErrors (events new))
    /\ Forall (fun c => exists t, In t (tests s) /\ snd c = scope t)
              (calls (events new)).
Proof.
  intros Htm.
  apply (run_trace_induction this
           (fun s evs =>
              (forall t, In t (tests s) ->
                 In t (doSuccesses evs) \/ exists e, In (t, e) (doErrors evs))
              /\ Forall (fun t => In t (tests s)) (doSuccesses evs)
              /\ Forall (fun p => In (fst p) (tests s)) (doErrors evs)
              /\ Forall (fun c => exists t, In t (tests s) /\ snd c = scope t)
                        (calls evs)));
    [| |reflexivity|exact Htm].
  - intros s0 Ht. rewrite Ht.
    split; [intros t0 [] | repeat split; constructor].
  - intros s0 s' t rest evs Ht Ht' _ (Hall & Hok & Herr & Hcall).
    destruct (cycle_reports this s0 Ht)
      as (_ & _ & _ & Hrep & Hok0 & Herr0 & Hcall0).
    rewrite Ht' in *. rewrite Ht.
    unfold doSuccesses, doErrors, calls in *. rewrite !omap_app.
    split; [|split; [|split]].
    + intros t' [<- | Hin].
      * destruct Hrep as [Hs | [e He]].
        -- left. apply in_or_app. left. rewrite Hs. left. reflexivity.
        -- right. exists e. apply in_or_app. left. exact He.
      * destruct (Hall t' Hin) as [Hs | [e He]].
        -- left. apply in_or_app. right. exact Hs.
        -- right. exists e. apply in_or_app. right. exact He.
    + apply Forall_app. split.
      * eapply Forall_impl; [exact Hok0|]. intros a <-. left. reflexivity.
      * eapply Forall_impl; [exact Hok|]. intros a Ha. right. exact Ha.
    + apply Forall_app. split.
      * eapply Forall_impl; [exact Herr0|]. intros a <-. left. reflexivity.
      * eapply Forall_impl; [exact Herr|]. intros a Ha. right. exact Ha.
    + apply Forall_app. split.
      * eapply Forall_impl; [exact Hcall0|]. intros a Ha. exists t.
        split; [left; reflexivity | exact Ha].
      * eapply Forall_impl; [exact Hcall|]. intros a (t' & Hin & Ha).
        exists t'. split; [right; exact Hin | exact Ha].
Qed.

Lemma run_reports_every_test_witness :
  exists new : list (nat * Event string nat string),
    trace (runLoop Scenario.plain (length (tests (Scenario.start [Scenario.t1; Scenario.t2])) + 0)
             (cycleTests Scenario.plain (Scenario.start [Scenario.t1; Scenario.t2])))
    = trace (Scenario.start [Scenario.t1; Scenario.t2]) ++ new
    /\ (forall t, In t (tests (Scenario.start [Scenario.t1; Scenario.t2])) ->
          In t (doSuccesses (events new))
          \/ exists e, In (t, e) (doErrors (events new)))
    /\ Forall (fun t => In t (tests (Scenario.start [Scenario.t1; Scenario.t2]))) (doSuccesses (events new))
    /\ Forall (fun p => In (fst p) (tests (Scenario.start [Scenario.t1; Scenario.t2]))) (doErrors (events new))
    /\ Forall (fun c => exists t, In t (tests (Scenario.start [Scenario.t1; Scenario.t2])) /\ snd c = scope t)
              (calls (events new)).
Proof.
  exact (run_reports_every_test Scenario.plain 0 (Scenario.start [Scenario.t1; Scenario.t2]) eq_refl).
Defined.



(** X5. The events of the cycle of a test, in full: the name, the run count
    and the log line; set-up; the body when set-up resolved; [doError] for a
    failure of set-up or of the body, before tear-down is submitted;
    tear-down; [doError] for a failure of tear-down; [doSuccess] when nothing
    was thrown, after tear-down settled; the timer, last. *)
Theorem reports_follow_their_phase {Scope World Error : Type}
    (this : TestCase Scope World Error) (s : State Scope World Error)
    (t : Test Scope World Error) (rest : list (Test Scope World Error)) :
  tests s = t :: rest ->
  events (cycle_events this s)
  = [EvCurrentTestName (name t); EvRunCount (S (runCount s));
     EvLog ("Running test: " ++ name t)]
    ++ phaseBlock this t s SetUp
    ++ match settled (setUpOutcome this t s) with
       | Resolved =>
           phaseBlock this t s Body ++ report t (settled (bodyOutcome this t s))
       | Rejected e => [EvDoError t e]
       end
    ++ phaseBlock this t s TearDown
    ++ report t (settled (tearDownOutcome this t s))
    ++ match thrown this t s with
       | [] => [EvDoSuccess t]
       | _ :: _ => []
       end
    ++ [EvTimeout CbCycleTests 100].
Proof.
  exact (cycle_events_closed this s (t := t) (rest := rest)).
Qed.

Lemma reports_follow_their_phase_witness :
  events (cycle_events Scenario.badSetUp (Scenario.start [Scenario.t2]))
  = [EvCurrentTestName "t2"; EvRunCount 1; EvLog "Running test: t2";
     EvSchedule "setUp()"; EvCall (Scenario.throws "bad") "scope2"%string;
     EvIdle "setUp()" (Rejected "bad"%string);
     EvDoError Scenario.t2 "bad"%string;
     EvSchedule "tearDown()"; EvCall Scenario.noop "scope2"%string;
     EvIdle "tearDown()" Resolved;
     EvTimeout CbCycleTests 100].
Proof.
  exact (reports_follow_their_phase Scenario.badSetUp
           (Scenario.start [Scenario.t2]) eq_refl).
Defined.

(** X6. The cycle of a test reports at least once and at most twice, never
    both through [doSuccess] and through [doError], and calls [doError] as
    many times as phases threw. *)
Theorem cycle_reports_once_or_twice {Scope World Error : Type}
    (this : TestCase Scope World Error) (s : State Scope World Error)
    (t : Test Scope World Error) (rest : list (Test Scope World Error)) :
  tests s = t :: rest ->
  1 <= length (doSuccesses (events (cycle_events this s)))
       + length (doErrors (events (cycle_events this s))) <= 2
  /\ (doSuccesses (events (cycle_events this s)) = []
      \/ doErrors (events (cycle_events this s)) = [])
  /\ length (doErrors (events (cycle_events this s)))
     = length (thrown this t s).
Proof.
  intros Ht.
  by_cycle_events this s Ht; (split; [lia|]); split; auto.
Qed.

Lemma cycle_reports_once_or_twice_witness :
  1 <= length (doSuccesses (events (cycle_events Scenario.badBoth
                                      (Scenario.start [Scenario.t2]))))
       + length (doErrors (events (cycle_events Scenario.badBoth
                                     (Scenario.start [Scenario.t2])))) <= 2.
Proof.
  exact (proj1 (cycle_reports_once_or_twice Scenario.badBoth
                  (Scenario.start [Scenario.t2]) eq_refl)).
Defined.

(** X7. [runSingleTest_] does what its documentation says it models: for
    every handler that returns, it leaves the state and settles as
    [try { setUp; ref } catch (ex) { onError(ex) }
     finally { try { tearDown } catch (e) { onError(e) } }] does. *)
Theorem runSingleTest_models_basic_flow {Scope World Error : Type}
    (this : TestCase Scope World Error) (test : Test Scope World Error)
    (handler : Error -> State Scope World Error -> State Scope World Error)
    (s : State Scope World Error) :
  runSingleTest_ this test handler s = basicTestFlow this test handler s.
Proof.
  unfold runSingleTest_, basicTestFlow, tryCatchFinally, tryCatch, sequence,
    addErrback, addCallback.
  destruct (scheduleAndWait test "setUp()" (setUp this) tt s) as [s1 [|e1]];
    [destruct (scheduleAndWait test (name test ++ "()") (ref test) tt s1)
       as [s2 [|e2]]|]; reflexivity.
Qed.

(** X8. The cycle of a test moves the iterator past that test alone, leaves
    [currentTestName] at its name, and leaves the heap as tear-down left
    it, tear-down having started from the heap of the body, or of set-up
    when set-up failed. *)
Theorem cycle_leaves_state {Scope World Error : Type}
    (this : TestCase Scope World Error) (s : State Scope World Error)
    (t : Test Scope World Error) (rest : list (Test Scope World Error)) :
  tests s = t :: rest ->
  tests (cycleTests this s) = rest
  /\ currentTestName (cycleTests this s) = name t
  /\ heap (cycleTests this s) = heap_after (tearDownOutcome this t s).
Proof.
  intros Ht. run_cycle Ht; repeat split; reflexivity.
Qed.

Lemma cycle_leaves_state_witness :
  tests (cycleTests Scenario.plain (Scenario.start [Scenario.t1; Scenario.t2])) = [Scenario.t2]
  /\ currentTestName (cycleTests Scenario.plain (Scenario.start [Scenario.t1; Scenario.t2])) = "t1"%string
  /\ heap (cycleTests Scenario.plain (Scenario.start [Scenario.t1; Scenario.t2])) = 3.
Proof.
  exact (cycle_leaves_state Scenario.plain (Scenario.start [Scenario.t1; Scenario.t2]) eq_refl).
Defined.
